(** * Gamification Demo API: a shallow embedding of [main.py]

    The service is a FastAPI application over four module-level constants
    ([_DEMO_USERS], [_DEMO_BADGES], [_DEMO_LEADERBOARD], [_DEMO_USER_DETAILS])
    plus a diagnostic handler, [test_database], that probes an optional
    [database] module and two environment variables.

    Conventions of the embedding:
    - a Python [str] is a [string] holding the UTF-8 encoding of the text, so
      one Python character is one lead byte followed by its continuation
      bytes; slicing and lengths count characters, not bytes ([py_take],
      [py_len]);
    - a Python [dict] with string keys is a [gmap string _]; a dict display
      [{k1: v1, ...}] inserts its items from left to right ([py_dict]);
    - a Python [int] is a [Z];
    - pydantic models are records, one module per class;
    - the module-level constants form the process state ([Globals]) that
      every request handler receives and hands back. *)

From Stdlib Require Import ZArith Ascii String.
From stdpp Require Import gmap strings list fin_maps.

#[local] Set Warnings "-register-all".
#[local] Open Scope Z_scope.

(** ** Python values *)

(** The dynamically typed values that cross an interface of the program: the
    parsed JSON body of a request, the items of a response dict, the [name]
    attribute and the collection names of a database handle. *)
Inductive pyval : Type :=
| PNone
| PBool (b : bool)
| PInt (z : Z)
| PStr (s : string)
| PList (l : list pyval)
| PDict (d : gmap string pyval).

(** [{k1: v1, ..., kn: vn}]: the items are stored from left to right, so a
    repeated key keeps its last value. *)
Definition py_dict {V : Type} (items : list (string * V)) : gmap string V :=
  foldl (fun d kv => <[kv.1 := kv.2]> d) ∅ items.

(** ** Python strings: characters of a UTF-8 encoded text *)

(** A continuation byte of UTF-8 has the form [10xxxxxx]. *)
Definition is_continuation (a : ascii) : bool :=
  match a with
  | Ascii _ _ _ _ _ _ b6 b7 => b7 && negb b6
  end.

(** [len(s)]: the number of characters, one per byte that starts one. *)
Fixpoint py_len (s : string) : nat :=
  match s with
  | EmptyString => O
  | String a r => if is_continuation a then py_len r else S (py_len r)
  end.

(** [s[:n]]: the first [n] characters of [s], each with all its bytes. *)
Fixpoint py_take (n : nat) (s : string) : string :=
  match s with
  | EmptyString => EmptyString
  | String a r =>
      if is_continuation a then String a (py_take n r)
      else match n with
           | O => EmptyString
           | S m => String a (py_take m r)
           end
  end.

(** Truth value of a [str]: only the empty string is false. *)
Definition str_truthy (s : string) : bool :=
  match s with
  | EmptyString => false
  | String _ _ => true
  end.

(** ** The pydantic models *)

Module DemoUser.
Record t : Type := mk {
  id : string;
  name : string;
  avatar : option string;
  title : string
}.
End DemoUser.

Module DemoBadge.
Record t : Type := mk {
  id : string;
  name : string;
  description : string;
  icon : string;
  color : string
}.
End DemoBadge.

Module DemoLeaderboardEntry.
Record t : Type := mk {
  user : DemoUser.t;
  points : Z;
  level : Z;
  rank : Z
}.

(** The field constraints [Field(ge=0)], [Field(ge=1)], [Field(ge=1)] that
    pydantic checks when an entry is built. *)
Definition field_constraints (e : t) : bool :=
  (0 <=? points e) && (1 <=? level e) && (1 <=? rank e).
End DemoLeaderboardEntry.

Module DemoUserSummary.
Record t : Type := mk {
  user : DemoUser.t;
  points : Z;
  level : Z;
  streak_days : Z;
  badges : list DemoBadge.t;
  recent_actions : list string
}.
End DemoUserSummary.

Module DemoAction.
Record t : Type := mk {
  action : string;
  points : Z
}.
End DemoAction.

#[export] Instance DemoUser_inhabited : Inhabited DemoUser.t :=
  populate (DemoUser.mk "" "" None "Player").
#[export] Instance DemoBadge_inhabited : Inhabited DemoBadge.t :=
  populate (DemoBadge.mk "" "" "" "Star" "#6366F1").

(** ** The sample dataset *)

Definition _DEMO_USERS : list DemoUser.t := [
  DemoUser.mk "u_001" "Alex Morgan" None "Sales Captain";
  DemoUser.mk "u_002" "Jamie Lee" None "Ops Strategist";
  DemoUser.mk "u_003" "Riley Chen" None "Product Ace";
  DemoUser.mk "u_004" "Jordan Patel" None "CX Pro"
].

Definition _DEMO_BADGES : list DemoBadge.t := [
  DemoBadge.mk "b_hero" "Hero" "Top performer of the week" "Trophy" "#F59E0B";
  DemoBadge.mk "b_streak" "Streak" "7-day activity streak" "Flame" "#EF4444";
  DemoBadge.mk "b_helper" "Mentor" "Helped 5 teammates" "Handshake" "#10B981"
].

(** [_DEMO_USERS[i]] and [_DEMO_BADGES[i]] are total lookups here: every
    index below is in range (see [demo_indices_in_range]). *)
Definition _DEMO_LEADERBOARD : list DemoLeaderboardEntry.t := [
  DemoLeaderboardEntry.mk (_DEMO_USERS !!! 0%nat) 18250 12 1;
  DemoLeaderboardEntry.mk (_DEMO_USERS !!! 1%nat) 16940 11 2;
  DemoLeaderboardEntry.mk (_DEMO_USERS !!! 2%nat) 15100 10 3;
  DemoLeaderboardEntry.mk (_DEMO_USERS !!! 3%nat) 13320 9 4
].

Definition _DEMO_USER_DETAILS : gmap string DemoUserSummary.t := py_dict [
  ("u_001", DemoUserSummary.mk (_DEMO_USERS !!! 0%nat) 18250 12 8
     [_DEMO_BADGES !!! 0%nat; _DEMO_BADGES !!! 1%nat]
     ["Closed enterprise deal (+2,000)";
      "Completed onboarding quest (+300)";
      "Shared playbook with team (+100)"]);
  ("u_002", DemoUserSummary.mk (_DEMO_USERS !!! 1%nat) 16940 11 6
     [_DEMO_BADGES !!! 1%nat]
     ["Optimized ops workflow (+500)";
      "Daily check-in (+20)"]);
  ("u_003", DemoUserSummary.mk (_DEMO_USERS !!! 2%nat) 15100 10 4
     []
     ["Launched feature beta (+1,200)"]);
  ("u_004", DemoUserSummary.mk (_DEMO_USERS !!! 3%nat) 13320 9 2
     [_DEMO_BADGES !!! 2%nat]
     ["Resolved 20+ support tickets (+800)"])
].

(** ** Python exceptions and the world outside the module *)

(** The classes of exception that the handlers tell apart: [ImportError]
    (with its subclass [ModuleNotFoundError]); any other instance of
    [Exception]; and the exceptions that are not instances of [Exception]
    ([SystemExit], [KeyboardInterrupt], [GeneratorExit]), which neither
    [except ImportError] nor [except Exception] catches. *)
Inductive ExceptionClass : Type :=
| ImportError
| OtherException
| NotException.

(** A raised exception: its class and what [str(e)] does. [mkPyException]
    is an exception whose [str(e)] returns a text; for [StrRaises], the call
    [str(e)] raises in its turn. *)
Inductive PyException : Type :=
| mkPyException (cls : ExceptionClass) (text : string)
| StrRaises (cls : ExceptionClass) (raised : PyException).

Definition exn_class (e : PyException) : ExceptionClass :=
  match e with
  | mkPyException cls _ => cls
  | StrRaises cls _ => cls
  end.

(** [str(e)]. *)
Definition py_str (e : PyException) : PyException + string :=
  match e with
  | mkPyException _ text => inr text
  | StrRaises _ raised => inl raised
  end.

(** What reading an attribute of an object meets: a value; no such attribute
    (an [AttributeError], which [getattr] with a default swallows); or
    another exception raised by the lookup. *)
Inductive AttributeLookup : Type :=
| AttributeIs (v : pyval)
| AttributeMissing
| AttributeRaises (e : PyException).

(** An object returned by [list_collection_names()], seen through the one
    operation the probe applies to it, [obj[:10]]: a list, or another object
    (a generator, [None], a string, ...) for which the slice raises or gives
    some value. *)
Inductive PyObject : Type :=
| ListObject (items : list pyval)
| OtherObject (slice : PyException + pyval).

(** [obj[:10]]. *)
Definition slice_first_ten (obj : PyObject) : PyException + pyval :=
  match obj with
  | ListObject items => inr (PList (take 10 items))
  | OtherObject slice => slice
  end.

(** The object bound to [db] when it is not [None]: what reading its [name]
    attribute meets, and what [db.list_collection_names()] does (the lookup
    of the method or the call raises, or the call returns an object). *)
Record DbHandle : Type := mkDbHandle {
  db_name : AttributeLookup;
  db_list_collection_names : PyException + PyObject
}.

(** What [from database import db] does: it raises, or binds [db] to [None]
    or to a handle. *)
Inductive ImportResult : Type :=
| ImportRaises (e : PyException)
| Imported (db : option DbHandle).

Record World : Type := mkWorld {
  import_database_db : ImportResult;
  environ : gmap string string
}.

(** [os.getenv(key)]. *)
Definition getenv (w : World) (key : string) : option string :=
  environ w !! key.

(** Truth value of the [Optional[str]] that [os.getenv] returns. *)
Definition truthy (v : option string) : bool :=
  match v with
  | None => false
  | Some s => str_truthy s
  end.

(** [getattr(db, "name", default)]: the default stands in for a missing
    attribute only; any other exception of the lookup is raised. *)
Definition getattr_name (db : DbHandle) (default : pyval) : PyException + pyval :=
  match db_name db with
  | AttributeIs v => inr v
  | AttributeMissing => inr default
  | AttributeRaises e => inl e
  end.

(** ** Process state and request handlers *)

(** The module-level names a handler can reach. *)
Record Globals : Type := mkGlobals {
  g_users : list DemoUser.t;
  g_badges : list DemoBadge.t;
  g_leaderboard : list DemoLeaderboardEntry.t;
  g_user_details : gmap string DemoUserSummary.t
}.

(** The state once the module has been imported. *)
Definition startup : Globals :=
  mkGlobals _DEMO_USERS _DEMO_BADGES _DEMO_LEADERBOARD _DEMO_USER_DETAILS.

Record HTTPException : Type := mkHTTPException {
  status_code : Z;
  detail : string
}.

(** How a request ends: the handler returns a value; the handler raises an
    [HTTPException]; FastAPI rejects the request before calling the handler
    because the body does not validate (status 422); or another exception
    leaves the handler (status 500). *)
Inductive outcome (A : Type) : Type :=
| Return (a : A)
| Raise (e : HTTPException)
| RequestValidationError
| Unhandled (e : PyException).
Arguments Return {A} a.
Arguments Raise {A} e.
Arguments RequestValidationError {A}.
Arguments Unhandled {A} e.

Definition http_status {A : Type} (o : outcome A) : Z :=
  match o with
  | Return _ => 200
  | Raise e => status_code e
  | RequestValidationError => 422
  | Unhandled _ => 500
  end.

(** A handler runs against the globals and hands them back. *)
Definition Handler (A : Type) : Type := Globals -> outcome A * Globals.

#[export] Instance handler_ret : MRet Handler :=
  fun A a g => (Return a, g).

#[export] Instance handler_bind : MBind Handler :=
  fun A B k m g =>
    match m g with
    | (Return a, g') => k a g'
    | (Raise e, g') => (Raise e, g')
    | (RequestValidationError, g') => (RequestValidationError, g')
    | (Unhandled e, g') => (Unhandled e, g')
    end.

Definition raise {A : Type} (e : HTTPException) : Handler A :=
  fun g => (Raise e, g).

(** Reading a module-level name. *)
Definition global {A : Type} (proj : Globals -> A) : Handler A :=
  fun g => (Return (proj g), g).

Definition get_leaderboard : Handler (list DemoLeaderboardEntry.t) :=
  global g_leaderboard.

Definition get_badges : Handler (list DemoBadge.t) :=
  global g_badges.

Definition list_users : Handler (list DemoUser.t) :=
  global g_users.

(** [_DEMO_USER_DETAILS.get(user_id)] is [None] or a model instance; a model
    instance is always true, so [not summary] holds exactly for [None]. *)
Definition get_user_summary (user_id : string) : Handler DemoUserSummary.t :=
  details ← global g_user_details;
  match details !! user_id with
  | None => raise (mkHTTPException 404 "User not found in demo dataset")
  | Some summary => mret summary
  end.

(** The dict returned by [award_points]. *)
Definition award_notice : gmap string pyval := py_dict [
  ("mode", PStr "demo");
  ("message", PStr "Read-only demo: no data was changed.")
].

Definition award_points (_ : DemoAction.t) : Handler (gmap string pyval) :=
  mret award_notice.

(** ** The diagnostic probe *)

(** [test_database] fills a local dict, [response], statement by statement,
    inside [try] blocks. A step of it returns or raises, and in both cases
    leaves behind the dict as updated so far. *)
Definition Probe (A : Type) : Type :=
  gmap string pyval -> (PyException + A) * gmap string pyval.

#[export] Instance probe_ret : MRet Probe :=
  fun A a response => (inr a, response).

#[export] Instance probe_bind : MBind Probe :=
  fun A B k m response =>
    match m response with
    | (inr a, response') => k a response'
    | (inl e, response') => (inl e, response')
    end.

(** [response[key] = v]. *)
Definition setitem (key : string) (v : pyval) : Probe unit :=
  fun response => (inr tt, <[key := v]> response).

(** A call into the world outside, which returns or raises. *)
Definition call {A : Type} (r : PyException + A) : Probe A :=
  fun response => (r, response).

(** [try: body / except ...: ...]. For a raised exception the clauses give
    the handler to run, or nothing when no clause matches its class; the
    exception then goes on to the enclosing block. *)
Definition try_except {A : Type} (body : Probe A)
    (clauses : PyException -> option (Probe A)) : Probe A :=
  fun response =>
    match body response with
    | (inl e, response') =>
        match clauses e with
        | Some handler => handler response'
        | None => (inl e, response')
        end
    | (inr a, response') => (inr a, response')
    end.

(** [from database import db]. *)
Definition import_db (w : World) : Probe (option DbHandle) :=
  call match import_database_db w with
       | ImportRaises e => inl e
       | Imported db => inr db
       end.

(** The result is what the caller of [test_database] sees: the exception
    that left the function, or the dict it returned. *)
Definition test_database (w : World) : PyException + gmap string pyval :=
  let response := py_dict [
    ("backend", PStr "✅ Running");
    ("database", PStr "❌ Not Available");
    ("database_url", PNone);
    ("database_name", PNone);
    ("connection_status", PStr "Not Connected");
    ("collections", PList [])
  ] in
  let body : Probe unit :=
    try_except
      (db ← import_db w;
       match db with
       | Some db =>
           setitem "database" (PStr "✅ Available");;
           setitem "database_url" (PStr "✅ Configured");;
           name ← call (getattr_name db (PStr "✅ Connected"));
           setitem "database_name" name;;
           setitem "connection_status" (PStr "Connected");;
           try_except
             (collections ← call (db_list_collection_names db);
              first_ten ← call (slice_first_ten collections);
              setitem "collections" first_ten;;
              setitem "database" (PStr "✅ Connected & Working"))
             (fun e =>
                match exn_class e with
                | NotException => None
                | _ =>
                    Some (text ← call (py_str e);
                          setitem "database"
                            (PStr ("⚠️  Connected but Error: " +:+ py_take 50 text)))
                end)
       | None =>
           setitem "database" (PStr "⚠️  Available but not initialized")
       end)
      (fun e =>
         match exn_class e with
         | ImportError =>
             Some (setitem "database" (PStr "❌ Database module not found"))
         | OtherException =>
             Some (text ← call (py_str e);
                   setitem "database"
                     (PStr ("❌ Error: " +:+ py_take 50 text)))
         | NotException => None
         end);;
    setitem "database_url"
      (PStr (if truthy (getenv w "DATABASE_URL") then "✅ Set" else "❌ Not Set"));;
    setitem "database_name"
      (PStr (if truthy (getenv w "DATABASE_NAME") then "✅ Set" else "❌ Not Set"))
  in
  match body response with
  | (inl e, _) => inl e
  | (inr _, response') => inr response'
  end.

(** ** Request validation and routing *)

(** How pydantic turns a JSON value into a [str] or an [int] field. Which
    other values it converts (a numeric string for an [int], say) depends on
    its version and mode; a JSON string is always a valid [str] and a JSON
    integer always a valid [int], and nothing more is assumed. *)
Class Pydantic : Type := {
  coerce_str : pyval -> option string;
  coerce_int : pyval -> option Z;
  coerce_str_PStr : forall s, coerce_str (PStr s) = Some s;
  coerce_int_PInt : forall z, coerce_int (PInt z) = Some z
}.

(** The validator that accepts nothing else. *)
#[export] Instance strict : Pydantic := {|
  coerce_str v := match v with PStr s => Some s | _ => None end;
  coerce_int v := match v with PInt z => Some z | _ => None end;
  coerce_str_PStr _ := eq_refl;
  coerce_int_PInt _ := eq_refl
|}.

(** A field declared without a default: [action: str]. *)
Definition required_field {A : Type} (coerce : pyval -> option A)
    (d : gmap string pyval) (key : string) : option A :=
  match d !! key with
  | None => None
  | Some v => coerce v
  end.

(** A field declared with a default: [points: int = 0]. *)
Definition default_field {A : Type} (coerce : pyval -> option A) (default : A)
    (d : gmap string pyval) (key : string) : option A :=
  match d !! key with
  | None => Some default
  | Some v => coerce v
  end.

(** Validation of a JSON body against [class DemoAction]; keys that name no
    field are ignored. *)
Definition validate_DemoAction `{Pydantic} (body : pyval) : option DemoAction.t :=
  match body with
  | PDict d =>
      match required_field coerce_str d "action",
            default_field coerce_int 0 d "points" with
      | Some action, Some points => Some (DemoAction.mk action points)
      | _, _ => None
      end
  | _ => None
  end.

Definition read_root : Handler (gmap string pyval) :=
  mret (py_dict [("message", PStr "Gamification Demo API running")]).

(** [app.version], from [FastAPI(title=..., version="1.0")]. *)
Definition app_version : string := "1.0".

Definition health : Handler (gmap string pyval) :=
  mret (py_dict [
    ("status", PStr "ok");
    ("mode", PStr "demo");
    ("version", PStr app_version)
  ]).

Inductive Request : Type :=
| GET_root
| GET_health
| GET_leaderboard
| GET_badges
| GET_users
| GET_user (user_id : string)
| POST_award (body : pyval)
| GET_test.

Inductive Payload : Type :=
| Json (d : gmap string pyval)
| Leaderboard (l : list DemoLeaderboardEntry.t)
| Badges (l : list DemoBadge.t)
| Users (l : list DemoUser.t)
| Summary (s : DemoUserSummary.t).

(** [POST /api/demo/award]: FastAPI validates the body, then calls the
    handler with the model. *)
Definition post_award `{Pydantic} (body : pyval) : Handler (gmap string pyval) :=
  match validate_DemoAction body with
  | Some a => award_points a
  | None => fun g => (RequestValidationError, g)
  end.

(** [GET /test]: an exception that leaves the handler is a server error. *)
Definition get_test (w : World) : Handler (gmap string pyval) :=
  fun g =>
    match test_database w with
    | inl e => (Unhandled e, g)
    | inr response => (Return response, g)
    end.

Definition route `{Pydantic} (w : World) (req : Request) : Handler Payload :=
  match req with
  | GET_root => d ← read_root; mret (Json d)
  | GET_health => d ← health; mret (Json d)
  | GET_leaderboard => l ← get_leaderboard; mret (Leaderboard l)
  | GET_badges => l ← get_badges; mret (Badges l)
  | GET_users => l ← list_users; mret (Users l)
  | GET_user user_id => s ← get_user_summary user_id; mret (Summary s)
  | POST_award body => d ← post_award body; mret (Json d)
  | GET_test => d ← get_test w; mret (Json d)
  end.

(** Serving a sequence of requests, one after the other, on the same
    globals; the replies are collected in order. *)
Fixpoint serve `{Pydantic} (w : World) (reqs : list Request) (g : Globals)
    : list (outcome Payload) * Globals :=
  match reqs with
  | [] => ([], g)
  | req :: rest =>
      let '(o, g') := route w req g in
      let '(os, g'') := serve w rest g' in
      (o :: os, g'')
  end.

(** ** Observations used in the statements *)

(** An item of the dict that [test_database] returned; nothing if an
    exception left the function instead. *)
Definition response_item (r : PyException + gmap string pyval) (key : string)
    : option pyval :=
  match r with
  | inr response => response !! key
  | inl _ => None
  end.

(** A [name] lookup that raises nothing: it reads a value, or finds no such
    attribute. *)
Definition found_or_missing (name : option pyval) : AttributeLookup :=
  match name with
  | Some v => AttributeIs v
  | None => AttributeMissing
  end.

Definition lookup_raises (a : AttributeLookup) : bool :=
  match a with
  | AttributeRaises _ => true
  | _ => false
  end.

(** The two statements of the inner [try] that call into the handle, taken
    together: the exception one of them raises, or the value of
    [db.list_collection_names()[:10]]. *)
Definition enumerate (db : DbHandle) : PyException + pyval :=
  match db_list_collection_names db with
  | inl e => inl e
  | inr obj => slice_first_ten obj
  end.

(** An exception that the [except] clauses of the probe turn into a text
    whichever of them it reaches: an instance of [Exception] whose [str(e)]
    returns. *)
Definition benign (e : PyException) : bool :=
  match e with
  | mkPyException NotException _ => false
  | mkPyException _ _ => true
  | StrRaises _ _ => false
  end.

(** The exceptions that the world outside can raise to the probe. *)
Definition raised_in (w : World) : list PyException :=
  match import_database_db w with
  | ImportRaises e => [e]
  | Imported None => []
  | Imported (Some db) =>
      match db_name db with
      | AttributeRaises e => [e]
      | _ => []
      end ++
      match enumerate db with
      | inl e => [e]
      | inr _ => []
      end
  end.

Definition well_behaved (w : World) : bool := forallb benign (raised_in w).

(** The responses of the probe, path by path: the world, the "database"
    text, the "connection_status" text and the "collections" value. *)
Inductive reported : World -> string -> string -> pyval -> Prop :=
| reported_module_not_found e env :
    exn_class e = ImportError ->
    reported (mkWorld (ImportRaises e) env)
      "❌ Database module not found" "Not Connected" (PList [])
| reported_import_error text env :
    reported (mkWorld (ImportRaises (mkPyException OtherException text)) env)
      ("❌ Error: " +:+ py_take 50 text) "Not Connected" (PList [])
| reported_not_initialized env :
    reported (mkWorld (Imported None) env)
      "⚠️  Available but not initialized" "Not Connected" (PList [])
| reported_name_import_error db e env :
    db_name db = AttributeRaises e -> exn_class e = ImportError ->
    reported (mkWorld (Imported (Some db)) env)
      "❌ Database module not found" "Not Connected" (PList [])
| reported_name_error db text env :
    db_name db = AttributeRaises (mkPyException OtherException text) ->
    reported (mkWorld (Imported (Some db)) env)
      ("❌ Error: " +:+ py_take 50 text) "Not Connected" (PList [])
| reported_working db v env :
    lookup_raises (db_name db) = false -> enumerate db = inr v ->
    reported (mkWorld (Imported (Some db)) env)
      "✅ Connected & Working" "Connected" v
| reported_enumeration_error db cls text env :
    lookup_raises (db_name db) = false ->
    enumerate db = inl (mkPyException cls text) -> cls <> NotException ->
    reported (mkWorld (Imported (Some db)) env)
      ("⚠️  Connected but Error: " +:+ py_take 50 text) "Connected" (PList [])
| reported_str_import_error db cls e env :
    lookup_raises (db_name db) = false ->
    enumerate db = inl (StrRaises cls e) -> cls <> NotException ->
    exn_class e = ImportError ->
    reported (mkWorld (Imported (Some db)) env)
      "❌ Database module not found" "Connected" (PList [])
| reported_str_error db cls text env :
    lookup_raises (db_name db) = false ->
    enumerate db = inl (StrRaises cls (mkPyException OtherException text)) ->
    cls <> NotException ->
    reported (mkWorld (Imported (Some db)) env)
      ("❌ Error: " +:+ py_take 50 text) "Connected" (PList []).

(** ** Building the dataset, with its checks *)

(** [l[i]] with a literal index; [None] stands for [IndexError]. *)
Definition subscript {A : Type} (l : list A) (i : nat) : option A := l !! i.

(** [DemoLeaderboardEntry(user=..., points=..., level=..., rank=...)]: the
    field constraints are checked, and [None] stands for the
    [ValidationError] raised when one fails. *)
Definition new_DemoLeaderboardEntry (user : DemoUser.t) (points level rank : Z)
    : option DemoLeaderboardEntry.t :=
  let e := DemoLeaderboardEntry.mk user points level rank in
  if DemoLeaderboardEntry.field_constraints e then Some e else None.

(** The display of [_DEMO_LEADERBOARD], over a given user list. *)
Definition build_leaderboard (users : list DemoUser.t)
    : option (list DemoLeaderboardEntry.t) :=
  u0 ← subscript users 0; e0 ← new_DemoLeaderboardEntry u0 18250 12 1;
  u1 ← subscript users 1; e1 ← new_DemoLeaderboardEntry u1 16940 11 2;
  u2 ← subscript users 2; e2 ← new_DemoLeaderboardEntry u2 15100 10 3;
  u3 ← subscript users 3; e3 ← new_DemoLeaderboardEntry u3 13320 9 4;
  Some [e0; e1; e2; e3].

(** The display of [_DEMO_USER_DETAILS], over given user and badge lists. *)
Definition build_user_details (users : list DemoUser.t)
    (badges : list DemoBadge.t) : option (gmap string DemoUserSummary.t) :=
  u0 ← subscript users 0;
  b0 ← subscript badges 0; b1 ← subscript badges 1;
  u1 ← subscript users 1;
  b1' ← subscript badges 1;
  u2 ← subscript users 2;
  u3 ← subscript users 3;
  b2 ← subscript badges 2;
  Some (py_dict [
    ("u_001", DemoUserSummary.mk u0 18250 12 8 [b0; b1]
       ["Closed enterprise deal (+2,000)";
        "Completed onboarding quest (+300)";
        "Shared playbook with team (+100)"]);
    ("u_002", DemoUserSummary.mk u1 16940 11 6 [b1']
       ["Optimized ops workflow (+500)";
        "Daily check-in (+20)"]);
    ("u_003", DemoUserSummary.mk u2 15100 10 4 []
       ["Launched feature beta (+1,200)"]);
    ("u_004", DemoUserSummary.mk u3 13320 9 2 [b2]
       ["Resolved 20+ support tickets (+800)"])
  ]).

(** The four module-level assignments, in order. *)
Definition build_globals (users : list DemoUser.t) (badges : list DemoBadge.t)
    : option Globals :=
  leaderboard ← build_leaderboard users;
  details ← build_user_details users badges;
  Some (mkGlobals users badges leaderboard details).

(** ** Invariants of the probe *)

(** The keys of the dict that [test_database] creates. *)
Definition response_keys : gset string :=
  {["backend"; "database"; "database_url"; "database_name";
    "connection_status"; "collections"]}.

(** A step that, run on a dict with the keys [K], leaves a dict with the
    keys [K], whether it returns or raises. *)
Definition keeps_keys {A : Type} (K : gset string) (m : Probe A) : Prop :=
  forall response, dom response = K -> dom (m response).2 = K.

(** ** Proof tactics *)

(** Case analysis on an index known to be below four. *)
Ltac below_four i H :=
  destruct i as [|[|[|[|i]]]]; [..|exfalso; lia]; clear H.

(** Case analysis on an exception that reaches the outer handlers: its class
    and whether [str(e)] returns. *)
Ltac outer_paths e := destruct e as [[] ?|[] ?].

(** Case analysis on an exception raised in the inner [try]: when its
    [str(e)] raises, the exception raised there reaches the outer handlers. *)
Ltac inner_paths e :=
  let e' := fresh "e" in
  destruct e as [[] ?|[] e'];
  [ | | | outer_paths e' | outer_paths e' | ].

(** Every path of the probe: what the import does, what the [name] lookup
    meets, what the enumeration does. *)
Ltac all_paths w :=
  let imp := fresh "imp" in
  let env := fresh "env" in
  let e := fresh "e" in
  let e1 := fresh "e" in
  let db := fresh "db" in
  let name := fresh "name" in
  let enum := fresh "enum" in
  let obj := fresh "obj" in
  destruct w as [imp env];
  destruct imp as [e|[db|]];
  [ outer_paths e
  | destruct db as [name enum];
    destruct name as [?| |e];
    [ destruct enum as [e1|[?|[e1|?]]]; [inner_paths e1| |inner_paths e1|]
    | destruct enum as [e1|[?|[e1|?]]]; [inner_paths e1| |inner_paths e1|]
    | outer_paths e ]
  | ].

(** Running the probe on a world whose outcomes are known: the result is
    the exception that escapes, or the initial dict with the assignments of
    the path applied to it. *)
Ltac probe_eval :=
  cbv beta iota zeta delta
    [test_database mbind probe_bind try_except setitem call import_db
     import_database_db getattr_name db_name db_list_collection_names
     slice_first_ten exn_class py_str response_item].

Ltac probe_eval_in H :=
  cbv beta iota zeta delta
    [test_database mbind probe_bind try_except setitem call import_db
     import_database_db getattr_name db_name db_list_collection_names
     slice_first_ten exn_class py_str response_item] in H.

Ltac run_probe := probe_eval; reflexivity.

(** * Properties *)

(** ** Dict displays *)

Lemma py_dict_snoc {V : Type} (items : list (string * V)) (k : string) (v : V) :
  py_dict (items ++ [(k, v)]) = <[k := v]> (py_dict items).
Proof. unfold py_dict. by rewrite foldl_snoc. Qed.

(** A value found in a dict display was written there as an item. *)
Lemma py_dict_lookup_Some {V : Type} (items : list (string * V)) k v :
  py_dict items !! k = Some v -> (k, v) ∈ items.
Proof.
  induction items as [|[k' v'] items IH] using rev_ind; intros Hk.
  - unfold py_dict in Hk. simpl in Hk. by rewrite lookup_empty in Hk.
  - rewrite py_dict_snoc in Hk. apply elem_of_app.
    destruct (decide (k' = k)) as [->|Hne].
    + rewrite lookup_insert_eq in Hk. injection Hk as ->.
      right. apply list_elem_of_singleton. done.
    + rewrite lookup_insert_ne in Hk by done. left. by apply IH.
Qed.

(** The keys of a dict display are the keys of its items. *)
Lemma py_dict_dom {V : Type} (items : list (string * V)) :
  dom (py_dict items) = list_to_set items.*1.
Proof.
  induction items as [|[k v] items IH] using rev_ind.
  - unfold py_dict. simpl. by rewrite dom_empty_L.
  - rewrite py_dict_snoc, dom_insert_L, IH, fmap_app, list_to_set_app_L.
    simpl. rewrite union_empty_r_L. apply (comm_L (∪)).
Qed.

(** ** Character counts of slices *)






(** ** The dataset *)

(** Every subscript in the dataset display is in range, so building the
    dataset raises no [IndexError]. *)
Lemma demo_indices_in_range :
  Forall (fun i => is_Some (_DEMO_USERS !! i)) [0; 1; 2; 3]%nat /\
  Forall (fun i => is_Some (_DEMO_BADGES !! i)) [0; 1; 2]%nat.
Proof. split; repeat constructor; by eexists. Qed.

(** Every leaderboard entry passes the field constraints of its model. *)
Lemma demo_leaderboard_constraints :
  forallb DemoLeaderboardEntry.field_constraints _DEMO_LEADERBOARD = true.
Proof. reflexivity. Qed.

Lemma demo_user_details_keys :
  dom _DEMO_USER_DETAILS = {["u_001"; "u_002"; "u_003"; "u_004"]}.
Proof.
  unfold _DEMO_USER_DETAILS. rewrite py_dict_dom. simpl. set_solver.
Qed.

(** The four items of the index, by cases on the key. *)
Lemma demo_user_details_cases (user_id : string) (s : DemoUserSummary.t) :
  _DEMO_USER_DETAILS !! user_id = Some s ->
  exists i : nat,
    (i < 4)%nat /\
    _DEMO_USERS !! i = Some (DemoUserSummary.user s) /\
    DemoUser.id (DemoUserSummary.user s) = user_id /\
    exists e, _DEMO_LEADERBOARD !! i = Some e /\
      DemoLeaderboardEntry.user e = DemoUserSummary.user s /\
      DemoLeaderboardEntry.points e = DemoUserSummary.points s /\
      DemoLeaderboardEntry.level e = DemoUserSummary.level s.
Proof.
  intros Hs. apply py_dict_lookup_Some in Hs.
  rewrite !elem_of_cons, elem_of_nil in Hs.
  destruct Hs as [Hs|[Hs|[Hs|[Hs|[]]]]]; injection Hs as -> ->.
  - exists 0%nat. split; [lia|]. repeat split. by eexists.
  - exists 1%nat. split; [lia|]. repeat split. by eexists.
  - exists 2%nat. split; [lia|]. repeat split. by eexists.
  - exists 3%nat. split; [lia|]. repeat split. by eexists.
Qed.

(** The users and the leaderboard entries of the dataset, by cases. *)
Lemma demo_users_cases (u : DemoUser.t) :
  u ∈ _DEMO_USERS ->
  exists i : nat, (i < 4)%nat /\ _DEMO_USERS !! i = Some u.
Proof.
  intros Hu. apply list_elem_of_lookup in Hu as [i Hi].
  exists i. split; [|done]. by apply lookup_lt_Some in Hi.
Qed.

Lemma demo_leaderboard_cases (e : DemoLeaderboardEntry.t) :
  e ∈ _DEMO_LEADERBOARD ->
  exists i : nat, (i < 4)%nat /\ _DEMO_LEADERBOARD !! i = Some e.
Proof.
  intros He. apply list_elem_of_lookup in He as [i Hi].
  exists i. split; [|done]. by apply lookup_lt_Some in Hi.
Qed.

(** ** Lookup handlers *)

(** C1. For every user identifier that is a key of the user-summary index,
    [GET /api/demo/user/{user_id}] returns the summary stored under it; for
    every other identifier the handler raises the 404 [HTTPException] whose
    detail is exactly "User not found in demo dataset". The globals are
    handed back as they were in both cases. *)
Theorem get_user_summary_found_or_404 (user_id : string) :
  (user_id ∈ dom _DEMO_USER_DETAILS ->
   exists summary,
     _DEMO_USER_DETAILS !! user_id = Some summary /\
     get_user_summary user_id startup = (Return summary, startup)) /\
  (user_id ∉ dom _DEMO_USER_DETAILS ->
   get_user_summary user_id startup =
     (Raise (mkHTTPException 404 "User not found in demo dataset"), startup) /\
   http_status (get_user_summary user_id startup).1 = 404).
Proof.
  unfold get_user_summary, mbind, handler_bind, global, mret, handler_ret, raise.
  cbn [g_user_details startup]. split.
  - intros [summary Hs]%elem_of_dom. exists summary. by rewrite Hs.
  - intros Hnone%not_elem_of_dom. by rewrite Hnone.
Qed.

(** C1 at the key "u_001" and at the unknown identifier "u_999". *)
Lemma get_user_summary_found_or_404_witness :
  (exists summary,
     _DEMO_USER_DETAILS !! "u_001" = Some summary /\
     get_user_summary "u_001" startup = (Return summary, startup)) /\
  (get_user_summary "u_999" startup =
     (Raise (mkHTTPException 404 "User not found in demo dataset"), startup) /\
   http_status (get_user_summary "u_999" startup).1 = 404).
Proof.
  split.
  - apply (proj1 (get_user_summary_found_or_404 "u_001")).
    apply elem_of_dom. eexists. reflexivity.
  - apply (proj2 (get_user_summary_found_or_404 "u_999")).
    apply not_elem_of_dom. reflexivity.
Defined.

(** C2. [GET /api/demo/leaderboard] returns the leaderboard list as it was
    built, without sorting it: four entries whose ranks are 1, 2, 3, 4 in
    that order and whose points strictly decrease as the rank increases; the
    entry of rank 1 has 18250 points and the entry of rank 4 has 13320. *)
Theorem get_leaderboard_ranking :
  (forall g, get_leaderboard g = (Return (g_leaderboard g), g)) /\
  exists entries,
    get_leaderboard startup = (Return entries, startup) /\
    entries = _DEMO_LEADERBOARD /\
    length entries = 4%nat /\
    DemoLeaderboardEntry.rank <$> entries = [1; 2; 3; 4] /\
    (forall (i j : nat) a b,
       entries !! i = Some a -> entries !! j = Some b -> (i < j)%nat ->
       DemoLeaderboardEntry.rank a < DemoLeaderboardEntry.rank b /\
       DemoLeaderboardEntry.points b < DemoLeaderboardEntry.points a) /\
    (forall a b,
       a ∈ entries -> b ∈ entries ->
       DemoLeaderboardEntry.rank a < DemoLeaderboardEntry.rank b ->
       DemoLeaderboardEntry.points b < DemoLeaderboardEntry.points a) /\
    (forall e, e ∈ entries ->
       (DemoLeaderboardEntry.rank e = 1 -> DemoLeaderboardEntry.points e = 18250) /\
       (DemoLeaderboardEntry.rank e = 4 -> DemoLeaderboardEntry.points e = 13320)).
Proof.
  split; [done|]. exists _DEMO_LEADERBOARD.
  split; [done|]. split; [done|]. split; [done|]. split; [done|].
  split; [|split].
  - intros i j a b Ha Hb Hij.
    assert (Hi : (i < 4)%nat) by by apply lookup_lt_Some in Ha.
    assert (Hj : (j < 4)%nat) by by apply lookup_lt_Some in Hb.
    below_four i Hi; below_four j Hj; try lia;
      injection Ha as <-; injection Hb as <-; simpl; lia.
  - intros a b (i & Hi & Ha)%demo_leaderboard_cases
      (j & Hj & Hb)%demo_leaderboard_cases.
    below_four i Hi; below_four j Hj;
      injection Ha as <-; injection Hb as <-; simpl; lia.
  - intros e (i & Hi & He)%demo_leaderboard_cases.
    below_four i Hi; injection He as <-; simpl; split; intros; lia.
Qed.

(** C8. [GET /api/demo/badges] returns exactly three badges, one of which
    has id "b_hero" and color "#F59E0B". *)
Theorem get_badges_three_with_hero :
  exists badges,
    get_badges startup = (Return badges, startup) /\
    length badges = 3%nat /\
    exists b, b ∈ badges /\
      DemoBadge.id b = "b_hero" /\ DemoBadge.color b = "#F59E0B".
Proof.
  exists _DEMO_BADGES. split; [done|]. split; [done|].
  eexists. split; [apply list_elem_of_here|]. by split.
Qed.

(** C7. For every key of the user-summary index, the user embedded in the
    summary that [get_user_summary] returns carries that identifier, occurs
    in the list that [list_users] returns, and equals every user of that
    list with the same identifier. *)
Theorem summary_user_matches_list_users (user_id : string) :
  user_id ∈ dom _DEMO_USER_DETAILS ->
  exists summary users,
    get_user_summary user_id startup = (Return summary, startup) /\
    list_users startup = (Return users, startup) /\
    DemoUser.id (DemoUserSummary.user summary) = user_id /\
    DemoUserSummary.user summary ∈ users /\
    forall u, u ∈ users -> DemoUser.id u = user_id ->
      u = DemoUserSummary.user summary.
Proof.
  intros [summary Hs]%elem_of_dom. exists summary, _DEMO_USERS.
  split.
  { unfold get_user_summary, mbind, handler_bind, global, mret, handler_ret.
    cbn [g_user_details startup]. by rewrite Hs. }
  split; [done|].
  destruct (demo_user_details_cases _ _ Hs) as (i & Hi & Hu & Hid & _).
  split; [done|]. split.
  { apply list_elem_of_lookup. by exists i. }
  intros u (j & Hj & Hju)%demo_users_cases Hsame.
  rewrite <- Hid in Hsame.
  below_four i Hi; below_four j Hj;
    injection Hu as Hu; injection Hju as Hju;
    rewrite <- Hu in Hsame |- *; rewrite <- Hju in Hsame |- *;
    first [reflexivity | discriminate Hsame].
Qed.

(** C7 at the key "u_003". *)
Lemma summary_user_matches_list_users_witness :
  exists summary users,
    get_user_summary "u_003" startup = (Return summary, startup) /\
    list_users startup = (Return users, startup) /\
    DemoUser.id (DemoUserSummary.user summary) = "u_003" /\
    DemoUserSummary.user summary ∈ users /\
    forall u, u ∈ users -> DemoUser.id u = "u_003" ->
      u = DemoUserSummary.user summary.
Proof.
  apply (summary_user_matches_list_users "u_003").
  apply elem_of_dom. eexists. reflexivity.
Defined.

(** C9. The keys of the user-summary index are exactly the identifiers of
    the users in the user collection; and for every key, a leaderboard entry
    embeds the user with that identifier, and every such entry has the
    points and the level stored in the summary under that key. *)
Theorem summary_index_consistent :
  dom _DEMO_USER_DETAILS = list_to_set (DemoUser.id <$> _DEMO_USERS) /\
  forall user_id summary,
    _DEMO_USER_DETAILS !! user_id = Some summary ->
    (exists e, e ∈ _DEMO_LEADERBOARD /\
       DemoUser.id (DemoLeaderboardEntry.user e) = user_id) /\
    (forall e, e ∈ _DEMO_LEADERBOARD ->
       DemoUser.id (DemoLeaderboardEntry.user e) = user_id ->
       DemoLeaderboardEntry.points e = DemoUserSummary.points summary /\
       DemoLeaderboardEntry.level e = DemoUserSummary.level summary).
Proof.
  split.
  { unfold _DEMO_USER_DETAILS. by rewrite py_dict_dom. }
  intros user_id summary Hs.
  destruct (demo_user_details_cases _ _ Hs)
    as (i & Hi & Hu & Hid & e & He & Heu & Hp & Hl).
  split.
  { exists e. split; [|by rewrite Heu].
    apply list_elem_of_lookup. by exists i. }
  intros e' (j & Hj & He')%demo_leaderboard_cases Hsame.
  rewrite <- Hp, <- Hl. rewrite <- Hid, <- Heu in Hsame.
  below_four i Hi; below_four j Hj;
    injection He as He; injection He' as He';
    rewrite <- He in Hsame |- *; rewrite <- He' in Hsame |- *;
    first [by split | discriminate Hsame].
Qed.

(** C9 at the key "u_002". *)
Lemma summary_index_consistent_witness :
  exists summary,
    _DEMO_USER_DETAILS !! "u_002" = Some summary /\
    (exists e, e ∈ _DEMO_LEADERBOARD /\
       DemoUser.id (DemoLeaderboardEntry.user e) = "u_002") /\
    (forall e, e ∈ _DEMO_LEADERBOARD ->
       DemoUser.id (DemoLeaderboardEntry.user e) = "u_002" ->
       DemoLeaderboardEntry.points e = DemoUserSummary.points summary /\
       DemoLeaderboardEntry.level e = DemoUserSummary.level summary).
Proof.
  eexists. split; [reflexivity|].
  apply (proj2 summary_index_consistent "u_002"). reflexivity.
Defined.

(** ** Handlers leave the globals alone *)

Lemma route_frame `{Pydantic} (w : World) (req : Request) (g : Globals) :
  (route w req g).2 = g.
Proof.
  destruct req; unfold route, mbind, handler_bind; simpl; try done.
  - unfold get_user_summary, mbind, handler_bind, global. simpl.
    by destruct (g_user_details g !! user_id).
  - unfold post_award. by destruct (validate_DemoAction body).
  - unfold get_test. by destruct (test_database w).
Qed.

Lemma serve_frame `{Pydantic} (w : World) (reqs : list Request) (g : Globals) :
  (serve w reqs g).2 = g.
Proof.
  induction reqs as [|req rest IH]; simpl; [done|].
  pose proof (route_frame w req g) as Hreq.
  destruct (route w req g) as [o g']. simpl in Hreq. subst g'.
  destruct (serve w rest g) as [os g'']. by simpl in *.
Qed.

(** Replies do not depend on the requests served before. *)
Lemma serve_cons `{Pydantic} (w : World) (req : Request) (rest : list Request)
    (g : Globals) :
  serve w (req :: rest) g = ((route w req g).1 :: (serve w rest g).1, g).
Proof.
  simpl. pose proof (route_frame w req g) as Hreq.
  destruct (route w req g) as [o g']. simpl in Hreq. subst g'.
  pose proof (serve_frame w rest g) as Hrest.
  destruct (serve w rest g) as [os g'']. simpl in *. by subst g''.
Qed.

(** ** The award endpoint *)

Lemma validate_DemoAction_Some `{Pydantic} (body : pyval) (a : DemoAction.t) :
  validate_DemoAction body = Some a ->
  exists d v, body = PDict d /\ d !! "action" = Some v /\
    coerce_str v = Some (DemoAction.action a).
Proof.
  destruct body as [| | | | |d]; try done. unfold validate_DemoAction.
  unfold required_field. destruct (d !! "action") as [v|] eqn:Hv; [|done].
  destruct (coerce_str v) as [s|] eqn:Hs; [|done].
  destruct (default_field _ _ _ _); [|done].
  intros [= <-]. by exists d, v.
Qed.

(** C3 as first stated fails on the body [{}]: it says nothing about
    [action] and is rejected, whatever the validator converts. *)
Lemma award_without_action_rejected :
  ~ exists P : Pydantic,
      (@post_award P (PDict ∅) startup).1 = Return award_notice.
Proof.
  intros [P HP]. unfold post_award in HP.
  destruct (validate_DemoAction (PDict ∅)) as [a|] eqn:Ha; [|done].
  apply validate_DemoAction_Some in Ha as (d & v & [= <-] & Hv & _).
  by rewrite lookup_empty in Hv.
Qed.

(** C3, as amended. For every request body that validates as a
    [DemoAction], [POST /api/demo/award] succeeds and returns exactly the
    dict with "mode" = "demo" and "message" = "Read-only demo: no data was
    changed."; the handler itself returns it for every [DemoAction]. For
    every request body, accepted or rejected, the globals are handed back
    unchanged, so [list_users], [get_leaderboard] and every later request
    answer as they would have without the award call. *)
Theorem award_points_read_only `{Pydantic} (body : pyval) (g : Globals) :
  (is_Some (validate_DemoAction body) ->
   post_award body g = (Return award_notice, g)) /\
  (forall d action,
     body = PDict d -> d !! "action" = Some (PStr action) ->
     d !! "points" = None \/ (exists points, d !! "points" = Some (PInt points)) ->
     post_award body g = (Return award_notice, g)) /\
  (forall a : DemoAction.t, award_points a g = (Return award_notice, g)) /\
  award_notice =
    <["message" := PStr "Read-only demo: no data was changed."]>
      {["mode" := PStr "demo"]} /\
  (post_award body g).2 = g /\
  list_users (post_award body g).2 = list_users g /\
  get_leaderboard (post_award body g).2 = get_leaderboard g /\
  forall w later,
    serve w (POST_award body :: later) g =
      ((route w (POST_award body) g).1 :: (serve w later g).1, g).
Proof.
  assert (Hframe : (post_award body g).2 = g).
  { unfold post_award. by destruct (validate_DemoAction body). }
  assert (Hvalid : is_Some (validate_DemoAction body) ->
                   post_award body g = (Return award_notice, g)).
  { intros [a Ha]. unfold post_award. by rewrite Ha. }
  split; [done|]. split.
  { intros d action -> Ha Hp. apply Hvalid.
    unfold validate_DemoAction, required_field, default_field.
    rewrite Ha, coerce_str_PStr.
    destruct Hp as [-> | [points ->]]; [done|].
    by rewrite coerce_int_PInt. }
  split; [done|]. split; [done|]. split; [done|].
  rewrite Hframe. split; [done|]. split; [done|].
  intros w later. apply serve_cons.
Qed.

(** C3 at the bodies [{"action": "test", "points": 50}] and
    [{"action": "test"}]. *)
Lemma award_points_read_only_witness :
  @post_award strict
    (PDict (<["points" := PInt 50]> {["action" := PStr "test"]})) startup
  = (Return award_notice, startup) /\
  @post_award strict (PDict {["action" := PStr "test"]}) startup
  = (Return award_notice, startup).
Proof.
  split.
  - apply (proj1 (@award_points_read_only strict
                    (PDict (<["points" := PInt 50]> {["action" := PStr "test"]}))
                    startup)).
    eexists. reflexivity.
  - apply (proj1 (proj2 (@award_points_read_only strict
                           (PDict {["action" := PStr "test"]}) startup))
             {["action" := PStr "test"]} "test").
    + reflexivity.
    + reflexivity.
    + left. reflexivity.
Defined.

(** C10. In the body of [POST /api/demo/award], [points] is optional and
    defaults to 0, and [action] is required: a body whose [action] is a
    string and that has no [points] validates to that action with 0 points,
    is accepted, and is answered like the body that also gives [points]; a
    body without [action] is rejected by validation (status 422). *)
Theorem demo_action_points_optional_action_required `{Pydantic}
    (action : string) (points : Z) (d : gmap string pyval) (g : Globals) :
  (d !! "action" = Some (PStr action) -> d !! "points" = None ->
   validate_DemoAction (PDict d) = Some (DemoAction.mk action 0) /\
   post_award (PDict d) g = (Return award_notice, g) /\
   validate_DemoAction (PDict (<["points" := PInt points]> d))
     = Some (DemoAction.mk action points) /\
   post_award (PDict d) g = post_award (PDict (<["points" := PInt points]> d)) g) /\
  (d !! "action" = None ->
   validate_DemoAction (PDict d) = None /\
   post_award (PDict d) g = (RequestValidationError, g) /\
   http_status (post_award (PDict d) g).1 = 422).
Proof.
  split.
  - intros Ha Hp.
    assert (Hv0 : validate_DemoAction (PDict d) = Some (DemoAction.mk action 0)).
    { unfold validate_DemoAction, required_field, default_field.
      by rewrite Ha, Hp, coerce_str_PStr. }
    assert (Hv1 : validate_DemoAction (PDict (<["points" := PInt points]> d))
                  = Some (DemoAction.mk action points)).
    { unfold validate_DemoAction, required_field, default_field.
      rewrite lookup_insert_ne by done. rewrite Ha, coerce_str_PStr.
      by rewrite lookup_insert_eq, coerce_int_PInt. }
    split; [done|]. unfold post_award. rewrite Hv0, Hv1. done.
  - intros Ha.
    assert (Hv : validate_DemoAction (PDict d) = None).
    { unfold validate_DemoAction, required_field. by rewrite Ha. }
    split; [done|]. unfold post_award. by rewrite Hv.
Qed.

(** C10 at the bodies [{"action": "test"}] and [{"points": 50}]. *)
Lemma demo_action_points_optional_action_required_witness :
  (validate_DemoAction (PDict {["action" := PStr "test"]})
     = Some (DemoAction.mk "test" 0) /\
   post_award (PDict {["action" := PStr "test"]}) startup
     = (Return award_notice, startup) /\
   validate_DemoAction
       (PDict (<["points" := PInt 50]> {["action" := PStr "test"]}))
     = Some (DemoAction.mk "test" 50) /\
   post_award (PDict {["action" := PStr "test"]}) startup
     = post_award (PDict (<["points" := PInt 50]> {["action" := PStr "test"]}))
         startup) /\
  (validate_DemoAction (PDict {["points" := PInt 50]}) = None /\
   post_award (PDict {["points" := PInt 50]}) startup
     = (RequestValidationError, startup) /\
   http_status (post_award (PDict {["points" := PInt 50]}) startup).1 = 422).
Proof.
  split.
  - apply (proj1 (@demo_action_points_optional_action_required strict
                    "test" 50 {["action" := PStr "test"]} startup));
      reflexivity.
  - apply (proj2 (@demo_action_points_optional_action_required strict
                    "test" 50 {["points" := PInt 50]} startup)).
    reflexivity.
Defined.

(** ** The diagnostic probe *)

Lemma truthy_true (v : option string) :
  truthy v = true <-> exists s, v = Some s /\ s <> "".
Proof.
  split.
  - destruct v as [[|a s]|]; try done. intros _. by exists (String a s).
  - intros ([|a s] & -> & Hs); done.
Qed.

(** A sequence that returned ran both of its parts. *)
Lemma probe_bind_returns {A B : Type} (m : Probe A) (k : A -> Probe B)
    (response response'' : gmap string pyval) (b : B) :
  (m ≫= k) response = (inr b, response'') ->
  exists a response', m response = (inr a, response') /\
                      k a response' = (inr b, response'').
Proof.
  unfold mbind, probe_bind.
  destruct (m response) as [[e|a] response']; [done|].
  intros Hk. by exists a, response'.
Qed.

(** The last two statements of [test_database] write the two environment
    items, on every path that reaches them. *)
Lemma test_database_tail (w : World) (response : gmap string pyval) :
  test_database w = inr response ->
  exists before,
    response =
      <["database_name" :=
          PStr (if truthy (getenv w "DATABASE_NAME")
                then "✅ Set" else "❌ Not Set")]>
        (<["database_url" :=
             PStr (if truthy (getenv w "DATABASE_URL")
                   then "✅ Set" else "❌ Not Set")]> before).
Proof.
  unfold test_database. cbv zeta.
  lazymatch goal with
  | |- match ?body ?initial with _ => _ end = _ -> _ =>
      destruct (body initial) as [[e|[]] response'] eqn:Hbody
  end; [done|].
  intros [= <-].
  apply probe_bind_returns in Hbody as ([] & before & _ & Hbody).
  apply probe_bind_returns in Hbody as ([] & before' & Hurl & Hname).
  unfold setitem in Hurl, Hname.
  injection Hurl as <-. injection Hname as <-. by exists before.
Qed.

Lemma test_database_env_items (w : World) (response : gmap string pyval) :
  test_database w = inr response ->
  response !! "database_url" =
    Some (PStr (if truthy (getenv w "DATABASE_URL")
                then "✅ Set" else "❌ Not Set")) /\
  response !! "database_name" =
    Some (PStr (if truthy (getenv w "DATABASE_NAME")
                then "✅ Set" else "❌ Not Set")).
Proof.
  intros (before & ->)%test_database_tail. split.
  - rewrite lookup_insert_ne by done. apply lookup_insert_eq.
  - apply lookup_insert_eq.
Qed.

(** Every response of the probe is one of the reported ones. *)
Lemma test_database_reported (w : World) (response : gmap string pyval) :
  test_database w = inr response ->
  exists status connection collections,
    reported w status connection collections /\
    response !! "database" = Some (PStr status) /\
    response !! "connection_status" = Some (PStr connection) /\
    response !! "collections" = Some collections /\
    response !! "backend" = Some (PStr "✅ Running").
Proof.
  intros Hr.
  all_paths w; probe_eval_in Hr;
    first
      [ discriminate Hr
      | injection Hr as <-; eexists _, _, _; split;
        [ first
            [ eapply reported_module_not_found; reflexivity
            | eapply reported_import_error
            | eapply reported_not_initialized
            | eapply reported_name_import_error; reflexivity
            | eapply reported_name_error; reflexivity
            | eapply reported_working; reflexivity
            | eapply reported_enumeration_error;
              [reflexivity|reflexivity|discriminate]
            | eapply reported_str_import_error;
              [reflexivity|reflexivity|discriminate|reflexivity]
            | eapply reported_str_error;
              [reflexivity|reflexivity|discriminate] ]
        | repeat split; reflexivity ] ].
Qed.

(** A world whose exceptions are all instances of [Exception] with a text
    gets a response. *)
Lemma test_database_returns (w : World) :
  well_behaved w = true -> exists response, test_database w = inr response.
Proof.
  intros Hb.
  all_paths w; try (cbv in Hb; discriminate Hb); eexists; run_probe.
Qed.

(** ** Worked examples *)

(** Slices count characters: each of the three accented letters takes two
    bytes, and [s[:2]] keeps two of them whole. *)
Example py_take_counts_characters :
  py_take 2 "éàü" = "éà" /\ py_len "éàü" = 3%nat /\ String.length "éàü" = 6%nat.
Proof. by repeat split. Qed.

(** A handle with twelve collections: ten are reported. *)
Example test_database_twelve_collections :
  let names := (fun n => PInt (Z.of_nat n)) <$> seq 0 12 in
  let w := mkWorld
             (Imported
                (Some (mkDbHandle (AttributeIs (PStr "demo"))
                         (inr (ListObject names)))))
             {["DATABASE_URL" := "mongodb://localhost"]} in
  response_item (test_database w) "collections" = Some (PList (take 10 names)) /\
  response_item (test_database w) "connection_status" = Some (PStr "Connected") /\
  response_item (test_database w) "database_name" = Some (PStr "❌ Not Set").
Proof. by repeat split. Qed.

(** A generator returned by [list_collection_names()] cannot be sliced: the
    [TypeError] is reported as an enumeration error. *)
Example test_database_generator_returned :
  let unsliceable :=
    OtherObject
      (inl (mkPyException OtherException "'generator' object is not subscriptable")) in
  let w := mkWorld
             (Imported (Some (mkDbHandle AttributeMissing (inr unsliceable)))) ∅ in
  response_item (test_database w) "database"
  = Some (PStr "⚠️  Connected but Error: 'generator' object is not subscriptable") /\
  response_item (test_database w) "collections" = Some (PList []).
Proof. by repeat split. Qed.

Example get_user_summary_u_004 :
  (get_user_summary "u_004" startup).1 =
    Return (DemoUserSummary.mk
              (DemoUser.mk "u_004" "Jordan Patel" None "CX Pro") 13320 9 2
              [DemoBadge.mk "b_helper" "Mentor" "Helped 5 teammates" "Handshake"
                 "#10B981"]
              ["Resolved 20+ support tickets (+800)"]).
Proof. reflexivity. Qed.







(** C6 as first stated fails when [DATABASE_URL] is set to the empty string:
    the variable is present in the environment, yet the "database_url" item
    says it is not set. *)
Lemma empty_database_url_reported_not_set :
  let w := mkWorld
             (ImportRaises (mkPyException ImportError "No module named 'database'"))
             {["DATABASE_URL" := ""]} in
  "DATABASE_URL" ∈ dom (environ w) /\
  response_item (test_database w) "database_url" = Some (PStr "❌ Not Set") /\
  response_item (test_database w) "database_url" <> Some (PStr "✅ Set").
Proof.
  split; [|split].
  - apply elem_of_dom. eexists. apply lookup_singleton_eq.
  - reflexivity.
  - assert (Hv : response_item
                   (test_database
                      (mkWorld
                         (ImportRaises
                            (mkPyException ImportError "No module named 'database'"))
                         {["DATABASE_URL" := ""]})) "database_url"
                 = Some (PStr "❌ Not Set")) by reflexivity.
    cbv zeta. rewrite Hv. discriminate.
Qed.

(** C6, as amended. Whatever the import of the database module does, the
    "database_url" and "database_name" items of the response say whether
    [DATABASE_URL] and [DATABASE_NAME] have a non-empty value: "✅ Set" for
    a variable set to a non-empty string, "❌ Not Set" for one that is
    unset or set to the empty string; two responses under the same
    environment agree on them. In particular, when the module is absent
    there is a response, its "database" item is
    "❌ Database module not found" and the two items depend on the
    environment alone. *)
Theorem test_database_env_indicators (imp : ImportResult)
    (env : gmap string string) :
  let r := test_database (mkWorld imp env) in
  (forall response,
     r = inr response ->
     ((exists s, env !! "DATABASE_URL" = Some s /\ s <> "") ->
      response_item r "database_url" = Some (PStr "✅ Set")) /\
     ((env !! "DATABASE_URL" = None \/ env !! "DATABASE_URL" = Some "") ->
      response_item r "database_url" = Some (PStr "❌ Not Set")) /\
     ((exists s, env !! "DATABASE_NAME" = Some s /\ s <> "") ->
      response_item r "database_name" = Some (PStr "✅ Set")) /\
     ((env !! "DATABASE_NAME" = None \/ env !! "DATABASE_NAME" = Some "") ->
      response_item r "database_name" = Some (PStr "❌ Not Set")) /\
     (forall imp' response',
        test_database (mkWorld imp' env) = inr response' ->
        response' !! "database_url" = response_item r "database_url" /\
        response' !! "database_name" = response_item r "database_name")) /\
  (well_behaved (mkWorld imp env) = true -> exists response, r = inr response) /\
  (forall e, imp = ImportRaises e -> exn_class e = ImportError ->
     exists response,
       r = inr response /\
       response_item r "database" = Some (PStr "❌ Database module not found")).
Proof.
  intros r. subst r. split; [|split].
  - intros response Hr. rewrite Hr. cbn [response_item].
    destruct (test_database_env_items _ _ Hr) as [Hurl Hname].
    unfold getenv in Hurl, Hname. cbn [environ] in Hurl, Hname.
    rewrite Hurl, Hname.
    split; [|split; [|split; [|split]]].
    + intros Hset%truthy_true. by rewrite Hset.
    + intros [-> | ->]; done.
    + intros Hset%truthy_true. by rewrite Hset.
    + intros [-> | ->]; done.
    + intros imp' response' Hr'.
      destruct (test_database_env_items _ _ Hr') as [Hurl' Hname'].
      unfold getenv in Hurl', Hname'. cbn [environ] in Hurl', Hname'.
      by rewrite Hurl', Hname'.
  - apply test_database_returns.
  - intros e -> He. outer_paths e; try discriminate He;
      (eexists; split; [run_probe|run_probe]).
Qed.

(** C6 with a missing module, [DATABASE_URL] set to a connection string and
    [DATABASE_NAME] set to the empty string. *)
Lemma test_database_env_indicators_witness :
  let r := test_database
             (mkWorld
                (ImportRaises (mkPyException ImportError "No module named 'database'"))
                (<["DATABASE_NAME" := ""]> {["DATABASE_URL" := "mongodb://localhost"]})) in
  response_item r "database_url" = Some (PStr "✅ Set") /\
  response_item r "database_name" = Some (PStr "❌ Not Set") /\
  response_item r "database" = Some (PStr "❌ Database module not found").
Proof.
  pose proof (test_database_env_indicators
                (ImportRaises (mkPyException ImportError "No module named 'database'"))
                (<["DATABASE_NAME" := ""]> {["DATABASE_URL" := "mongodb://localhost"]}))
    as (Hitems & _ & Habsent).
  cbv zeta in *.
  destruct (Habsent _ eq_refl eq_refl) as (response & Hr & Hdb).
  destruct (Hitems response Hr) as (Hurl & _ & _ & Hname & _).
  split; [|split].
  - apply Hurl. exists "mongodb://localhost". split; [reflexivity|discriminate].
  - apply Hname. right. reflexivity.
  - exact Hdb.
Defined.

(** * Further properties *)

#[local] Set Warnings "-clear-no-such-hyp".

(** ** Building the dataset *)

(** X1. Building the leaderboard and the summary index from a user list and
    a badge list succeeds exactly when every subscript is in range, that is
    with at least four users and three badges; the field constraints of the
    four entries hold for the literal numbers. With the lists of the module
    it succeeds and gives the state the handlers start from. *)
Theorem build_globals_in_range (users : list DemoUser.t)
    (badges : list DemoBadge.t) :
  (is_Some (build_globals users badges) <->
   (4 <= length users)%nat /\ (3 <= length badges)%nat) /\
  (is_Some (build_leaderboard users) <-> (4 <= length users)%nat) /\
  build_globals _DEMO_USERS _DEMO_BADGES = Some startup.
Proof.
  split; [|split; [|reflexivity]].
  - destruct users as [|u0 [|u1 [|u2 [|u3 users]]]];
      try (split; [intros [g Hg]; discriminate Hg | simpl; lia]).
    destruct badges as [|b0 [|b1 [|b2 badges]]];
      try (split; [intros [g Hg]; discriminate Hg | simpl; lia]).
    split; [simpl; lia|]. intros _. by eexists.
  - destruct users as [|u0 [|u1 [|u2 [|u3 users]]]];
      try (split; [intros [g Hg]; discriminate Hg | simpl; lia]).
    split; [simpl; lia|]. intros _. by eexists.
Qed.

(** ** The dataset as the handlers return it *)

(** X2. Identifiers are unique: no two users returned by [list_users] share
    an id, no two badges returned by [get_badges] share an id, and no two
    entries returned by [get_leaderboard] share a rank or a user. The
    leaderboard lists every user once, in the order of [list_users]. *)
Theorem demo_identifiers_unique :
  exists users badges entries,
    list_users startup = (Return users, startup) /\
    get_badges startup = (Return badges, startup) /\
    get_leaderboard startup = (Return entries, startup) /\
    NoDup (DemoUser.id <$> users) /\
    NoDup (DemoBadge.id <$> badges) /\
    NoDup (DemoLeaderboardEntry.rank <$> entries) /\
    DemoLeaderboardEntry.user <$> entries = users.
Proof.
  exists _DEMO_USERS, _DEMO_BADGES, _DEMO_LEADERBOARD.
  split; [done|]. split; [done|]. split; [done|].
  split; [|split; [|split; [|done]]].
  - apply (bool_decide_unpack _). reflexivity.
  - apply (bool_decide_unpack _). reflexivity.
  - apply (bool_decide_unpack _). reflexivity.
Qed.

(** X3. Every badge of a summary that [get_user_summary] returns is one of
    the badges that [get_badges] returns, and a summary lists no badge
    twice; its points, level and streak are not negative and it has at
    least one recent action. *)
Theorem summary_badges_known (user_id : string) (summary : DemoUserSummary.t) :
  (get_user_summary user_id startup).1 = Return summary ->
  exists badges,
    get_badges startup = (Return badges, startup) /\
    Forall (fun b => b ∈ badges) (DemoUserSummary.badges summary) /\
    NoDup (DemoBadge.id <$> DemoUserSummary.badges summary) /\
    0 <= DemoUserSummary.points summary /\
    1 <= DemoUserSummary.level summary /\
    0 <= DemoUserSummary.streak_days summary /\
    DemoUserSummary.recent_actions summary <> [].
Proof.
  intros Hget. exists _DEMO_BADGES. split; [done|].
  assert (Hs : _DEMO_USER_DETAILS !! user_id = Some summary).
  { revert Hget.
    unfold get_user_summary, mbind, handler_bind, global, mret, handler_ret,
      raise.
    cbn [g_user_details startup].
    destruct (_DEMO_USER_DETAILS !! user_id); [|done].
    cbn [fst]. by intros [= ->]. }
  apply py_dict_lookup_Some in Hs.
  rewrite !elem_of_cons, elem_of_nil in Hs.
  assert (Hmem : forall i b, _DEMO_BADGES !! i = Some b -> b ∈ _DEMO_BADGES).
  { intros i b Hb. apply list_elem_of_lookup. by exists i. }
  assert (Hknown : forall b, (exists i, _DEMO_BADGES !! i = Some b) ->
                   b ∈ _DEMO_BADGES).
  { intros b [i Hb]. by apply (Hmem i). }
  destruct Hs as [Hs|[Hs|[Hs|[Hs|[]]]]]; injection Hs as -> ->;
    cbn [DemoUserSummary.badges DemoUserSummary.points DemoUserSummary.level
         DemoUserSummary.streak_days DemoUserSummary.recent_actions];
    (split;
     [repeat (apply Forall_cons_2;
              [apply Hknown;
               first [by exists 0%nat | by exists 1%nat | by exists 2%nat]|]);
      apply Forall_nil_2|]);
    (split; [apply (bool_decide_unpack _); reflexivity|]);
    by repeat split.
Qed.

(** X3 at the summary of "u_001". *)
Lemma summary_badges_known_witness :
  exists summary,
    (get_user_summary "u_001" startup).1 = Return summary /\
    exists badges,
      get_badges startup = (Return badges, startup) /\
      Forall (fun b => b ∈ badges) (DemoUserSummary.badges summary) /\
      NoDup (DemoBadge.id <$> DemoUserSummary.badges summary) /\
      0 <= DemoUserSummary.points summary /\
      1 <= DemoUserSummary.level summary /\
      0 <= DemoUserSummary.streak_days summary /\
      DemoUserSummary.recent_actions summary <> [].
Proof.
  eexists. split; [reflexivity|].
  apply (summary_badges_known "u_001"). reflexivity.
Defined.

(** ** The shape of the diagnostic response *)

Lemma keeps_keys_setitem (K : gset string) (key : string) (v : pyval) :
  key ∈ K -> keeps_keys K (setitem key v).
Proof.
  intros Hkey response Hdom. unfold setitem. cbn [snd].
  rewrite dom_insert_L, Hdom. set_solver.
Qed.

Lemma keeps_keys_call {A : Type} (K : gset string) (r : PyException + A) :
  keeps_keys K (call r).
Proof. by intros response Hdom. Qed.

Lemma keeps_keys_bind {A B : Type} (K : gset string) (m : Probe A)
    (k : A -> Probe B) :
  keeps_keys K m -> (forall a, keeps_keys K (k a)) -> keeps_keys K (m ≫= k).
Proof.
  intros Hm Hk response Hdom. specialize (Hm response Hdom).
  unfold mbind, probe_bind.
  destruct (m response) as [[e|a] response']; [done|].
  by apply Hk.
Qed.

Lemma keeps_keys_try_except {A : Type} (K : gset string) (body : Probe A)
    (clauses : PyException -> option (Probe A)) :
  keeps_keys K body ->
  (forall e, match clauses e with
             | Some handler => keeps_keys K handler
             | None => True
             end) ->
  keeps_keys K (try_except body clauses).
Proof.
  intros Hb Hh response Hdom. specialize (Hb response Hdom).
  unfold try_except.
  destruct (body response) as [[e|a] response']; [|done].
  specialize (Hh e). destruct (clauses e) as [handler|]; [|done].
  by apply Hh.
Qed.

Lemma response_keys_elem (key : string) :
  key ∈ ["backend"; "database"; "database_url"; "database_name";
         "connection_status"; "collections"] ->
  key ∈ response_keys.
Proof. unfold response_keys. set_solver. Qed.

(** Every assignment of the probe writes one of the six keys. *)
Ltac keeps_keys_auto :=
  repeat lazymatch goal with
    | |- keeps_keys _ (setitem _ _) =>
        apply keeps_keys_setitem; apply response_keys_elem;
        apply (bool_decide_unpack _); reflexivity
    | |- keeps_keys _ (call _) => apply keeps_keys_call
    | |- keeps_keys _ (try_except _ _) => apply keeps_keys_try_except
    | |- keeps_keys _ (mbind _ _) => apply keeps_keys_bind
    | |- keeps_keys _ (match ?x with _ => _ end) => destruct x
    | |- forall _, keeps_keys _ _ => intro; cbv beta
    | |- forall _, match _ with _ => _ end => intro; cbv beta
    | |- match match ?x with _ => _ end with _ => _ end => destruct x
    | |- True => exact I
    end.

(** X4. Whatever the import, the handle and the environment do, a dict that
    [test_database] returns has exactly the six keys "backend", "database",
    "database_url", "database_name", "connection_status" and "collections":
    the probe adds no key and removes none. *)
Theorem test_database_keys (w : World) :
  (forall response,
     test_database w = inr response ->
     dom response = response_keys /\ size response = 6%nat) /\
  (well_behaved w = true ->
   exists response,
     test_database w = inr response /\
     dom response = response_keys /\ size response = 6%nat).
Proof.
  assert (Hkeys : forall response,
            test_database w = inr response ->
            dom response = response_keys /\ size response = 6%nat).
  { intros response Hr.
    assert (Hdom : dom response = response_keys).
    { unfold test_database in Hr.
      lazymatch type of Hr with
      | match ?body ?initial with _ => _ end = _ =>
          assert (Hbody : keeps_keys response_keys body);
          [|assert (Hinit : dom initial = response_keys);
            [|specialize (Hbody initial Hinit);
              destruct (body initial) as [[e|[]] response']; [done|];
              injection Hr as <-; exact Hbody]]
      end.
      - unfold import_db. keeps_keys_auto.
      - rewrite py_dict_dom. unfold response_keys. simpl. set_solver. }
    split; [done|].
    rewrite <- size_dom, Hdom. unfold response_keys.
    rewrite !size_union, !size_singleton; [done|set_solver..]. }
  split; [done|].
  intros [response Hr]%test_database_returns.
  exists response. split; [done|]. by apply Hkeys.
Qed.

(** X4 with a handle whose [name] lookup raises. *)
Lemma test_database_keys_witness :
  exists response,
    test_database
      (mkWorld
         (Imported
            (Some (mkDbHandle
                     (AttributeRaises (mkPyException OtherException "name boom"))
                     (inr (ListObject [PStr "users"])))))
         ∅)
    = inr response /\
    dom response = response_keys /\ size response = 6%nat.
Proof.
  apply (proj2 (test_database_keys
                  (mkWorld
                     (Imported
                        (Some (mkDbHandle
                                 (AttributeRaises
                                    (mkPyException OtherException "name boom"))
                                 (inr (ListObject [PStr "users"])))))
                     ∅))).
  reflexivity.
Defined.

(** A text that starts differently is a different text. *)
Ltac differs H := vm_compute in H; discriminate H.

(** X5. The values that [test_database] stores before and inside the [try]
    block never reach the caller: in a dict it returns, "database" is
    neither the initial "❌ Not Available" nor the intermediate
    "✅ Available", and "database_url" and "database_name" are neither
    null nor "✅ Configured": each is "✅ Set" or "❌ Not Set". *)
Theorem test_database_placeholders_overwritten (w : World) :
  response_item (test_database w) "database" <> Some (PStr "❌ Not Available") /\
  response_item (test_database w) "database" <> Some (PStr "✅ Available") /\
  (forall response,
     test_database w = inr response ->
     (response !! "database_url" = Some (PStr "✅ Set") \/
      response !! "database_url" = Some (PStr "❌ Not Set")) /\
     (response !! "database_name" = Some (PStr "✅ Set") \/
      response !! "database_name" = Some (PStr "❌ Not Set"))).
Proof.
  assert (Hstatus : forall placeholder,
            placeholder = "❌ Not Available" \/ placeholder = "✅ Available" ->
            response_item (test_database w) "database" <> Some (PStr placeholder)).
  { intros placeholder Hp.
    destruct (test_database w) as [e|response] eqn:Hr; [done|].
    destruct (test_database_reported w response Hr)
      as (status & connection & collections & Hrep & Hdb & _).
    cbn [response_item]. rewrite Hdb. clear Hr Hdb.
    inversion Hrep; subst; intros [= Heq];
      destruct Hp as [Hp | Hp]; rewrite Hp in Heq; differs Heq. }
  split; [apply Hstatus; by left|]. split; [apply Hstatus; by right|].
  intros response Hr.
  destruct (test_database_env_items w response Hr) as [-> ->].
  split.
  - destruct (truthy (getenv w "DATABASE_URL")); [by left|by right].
  - destruct (truthy (getenv w "DATABASE_NAME")); [by left|by right].
Qed.

(** X5 with a handle that lists one collection. *)
Lemma test_database_placeholders_overwritten_witness :
  exists response,
    test_database
      (mkWorld
         (Imported
            (Some (mkDbHandle (AttributeIs (PStr "demo"))
                     (inr (ListObject [PStr "users"])))))
         ∅)
    = inr response /\
    (response !! "database_url" = Some (PStr "✅ Set") \/
     response !! "database_url" = Some (PStr "❌ Not Set")) /\
    (response !! "database_name" = Some (PStr "✅ Set") \/
     response !! "database_name" = Some (PStr "❌ Not Set")).
Proof.
  destruct (test_database
              (mkWorld
                 (Imported
                    (Some (mkDbHandle (AttributeIs (PStr "demo"))
                             (inr (ListObject [PStr "users"])))))
                 ∅)) as [e|response] eqn:Hr;
    [probe_eval_in Hr; discriminate Hr|].
  exists response. split; [reflexivity|].
  exact (proj2 (proj2 (test_database_placeholders_overwritten _)) response Hr).
Defined.

(** X6. "backend" is "✅ Running" in every response, and
    "connection_status" is "Connected" exactly when the import bound [db] to
    a handle and reading its [name] did not raise, also when enumerating its
    collections then failed; otherwise it is "Not Connected". *)
Theorem test_database_connection_status (w : World)
    (response : gmap string pyval) :
  test_database w = inr response ->
  response !! "backend" = Some (PStr "✅ Running") /\
  (response !! "connection_status" = Some (PStr "Connected") \/
   response !! "connection_status" = Some (PStr "Not Connected")) /\
  (response !! "connection_status" = Some (PStr "Connected")
   <-> exists db,
         import_database_db w = Imported (Some db) /\
         lookup_raises (db_name db) = false).
Proof.
  intros Hr.
  destruct (test_database_reported w response Hr)
    as (status & connection & collections & Hrep & _ & -> & _ & ->).
  split; [done|].
  inversion Hrep as
    [e env He|text env|env|db e env Hn He|db text env Hn|db v env Hn Hen
    |db cls text env Hn Hen Hc|db cls e env Hn Hen Hc He
    |db cls text env Hn Hen Hc]; subst; cbn [import_database_db];
    (split; [by (left + right)|]);
    (split;
     [ first [ done | intros _; by exists db ]
     | first [ done
             | intros (db' & [= <-] & Hl); rewrite Hn in Hl; discriminate Hl
             | by intros (db' & [=] & _) ] ]).
Qed.

(** X6 with a handle whose enumeration times out. *)
Lemma test_database_connection_status_witness :
  exists response,
    test_database
      (mkWorld
         (Imported
            (Some (mkDbHandle AttributeMissing
                     (inl (mkPyException OtherException "timed out")))))
         ∅)
    = inr response /\
    response !! "backend" = Some (PStr "✅ Running") /\
    response !! "connection_status" = Some (PStr "Connected").
Proof.
  destruct (test_database
              (mkWorld
                 (Imported
                    (Some (mkDbHandle AttributeMissing
                             (inl (mkPyException OtherException "timed out")))))
                 ∅)) as [e|response] eqn:Hr;
    [probe_eval_in Hr; discriminate Hr|].
  exists response. split; [reflexivity|].
  destruct (test_database_connection_status _ response Hr) as (Hb & _ & Hc).
  split; [exact Hb|]. apply Hc. eexists. split; reflexivity.
Defined.

(** What the [name] lookup read is stored under "database_name" and
    overwritten by the last statement. *)
Lemma test_database_name_unread (name : option pyval)
    (enumeration : PyException + PyObject) (env : gmap string string) :
  test_database
    (mkWorld (Imported (Some (mkDbHandle (found_or_missing name) enumeration))) env)
  = test_database
      (mkWorld (Imported (Some (mkDbHandle AttributeMissing enumeration))) env).
Proof.
  destruct name as [v|]; [|reflexivity].
  destruct enumeration as [e|[?|[e|?]]]; try inner_paths e;
    probe_eval; try reflexivity; f_equal;
    apply map_eq; intros k; rewrite !lookup_insert;
    repeat case_decide; congruence.
Qed.

(** X7. The [name] attribute of the handle never shows in the response:
    whatever value the lookup reads, or if there is no such attribute, the
    outcome of [test_database] is the same. *)
Theorem test_database_ignores_handle_name (name name' : option pyval)
    (enumeration : PyException + PyObject) (env : gmap string string) :
  test_database
    (mkWorld (Imported (Some (mkDbHandle (found_or_missing name) enumeration))) env)
  = test_database
      (mkWorld (Imported (Some (mkDbHandle (found_or_missing name') enumeration)))
         env).
Proof. by rewrite (test_database_name_unread name), (test_database_name_unread name'). Qed.

(** X8. In a response, "database" is "✅ Connected & Working" exactly when
    the import bound [db] to a handle, reading its [name] did not raise,
    [list_collection_names()] returned and the slice of its result gave a
    value; and a response whose "collections" is not the empty list is such
    a response. *)
Theorem test_database_working_iff (w : World) (response : gmap string pyval) :
  test_database w = inr response ->
  (response !! "database" = Some (PStr "✅ Connected & Working")
   <-> exists db v,
         import_database_db w = Imported (Some db) /\
         lookup_raises (db_name db) = false /\
         enumerate db = inr v) /\
  (response !! "collections" <> Some (PList []) ->
   response !! "database" = Some (PStr "✅ Connected & Working") /\
   response !! "connection_status" = Some (PStr "Connected")).
Proof.
  intros Hr.
  destruct (test_database_reported w response Hr)
    as (status & connection & collections & Hrep & -> & -> & -> & _).
  clear Hr.
  inversion Hrep as
    [e env He|text env|env|db e env Hn He|db text env Hn|db v env Hn Hen
    |db cls text env Hn Hen Hc|db cls e env Hn Hen Hc He
    |db cls text env Hn Hen Hc]; subst; cbn [import_database_db];
    (split; [|first [by intros [] | done]]);
    (split;
     [ first [ intros [= Heq]; differs Heq | intros _; by eexists _, _ ]
     | first [ done
             | intros (db' & v' & [= <-] & Hl & Hv);
               first [ rewrite Hn in Hl; discriminate Hl
                     | rewrite Hen in Hv; discriminate Hv ]
             | by intros (db' & v' & [=] & _) ] ]).
Qed.

(** X8 with a handle that has two collections. *)
Lemma test_database_working_iff_witness :
  exists response,
    test_database
      (mkWorld
         (Imported
            (Some (mkDbHandle AttributeMissing
                     (inr (ListObject [PStr "users"; PStr "badges"])))))
         ∅)
    = inr response /\
    response !! "database" = Some (PStr "✅ Connected & Working").
Proof.
  destruct (test_database
              (mkWorld
                 (Imported
                    (Some (mkDbHandle AttributeMissing
                             (inr (ListObject [PStr "users"; PStr "badges"])))))
                 ∅)) as [e|response] eqn:Hr;
    [probe_eval_in Hr; discriminate Hr|].
  exists response. split; [reflexivity|].
  apply (proj1 (test_database_working_iff _ response Hr)).
  eexists _, _. repeat split; reflexivity.
Defined.

(** ** The size of what the probe reports *)






(** X11. When reading [name] does not raise and [list_collection_names()]
    returns a list: a list of at most ten items is reported whole, in order;
    of a longer one, the first ten items are reported, in order, and the
    rest is dropped. *)
Theorem test_database_collections_prefix (name : option pyval)
    (names : list pyval) (env : gmap string string) :
  let r := test_database
             (mkWorld
                (Imported
                   (Some (mkDbHandle (found_or_missing name)
                            (inr (ListObject names)))))
                env) in
  ((length names <= 10)%nat ->
   response_item r "collections" = Some (PList names)) /\
  ((10 < length names)%nat ->
   exists reported dropped,
     response_item r "collections" = Some (PList reported) /\
     length reported = 10%nat /\ dropped <> [] /\
     names = reported ++ dropped).
Proof.
  intros r. subst r.
  assert (Hc : response_item
                 (test_database
                    (mkWorld
                       (Imported
                          (Some (mkDbHandle (found_or_missing name)
                                   (inr (ListObject names)))))
                       env))
                 "collections" = Some (PList (take 10 names)))
    by (destruct name; run_probe).
  rewrite Hc. split.
  - intros Hle. by rewrite take_ge.
  - intros Hlt. exists (take 10 names), (drop 10 names).
    split; [done|]. split; [rewrite length_take; lia|].
    split; [|by rewrite take_drop].
    intros Hnil. apply (f_equal length) in Hnil.
    rewrite length_drop in Hnil. simpl in Hnil. lia.
Qed.

(** X11 with three collections and with twelve. *)
Lemma test_database_collections_prefix_witness :
  response_item
    (test_database
       (mkWorld
          (Imported
             (Some (mkDbHandle (found_or_missing None)
                      (inr (ListObject
                              [PStr "users"; PStr "badges"; PStr "events"])))))
          ∅))
    "collections"
  = Some (PList [PStr "users"; PStr "badges"; PStr "events"]) /\
  exists reported dropped,
    response_item
      (test_database
         (mkWorld
            (Imported
               (Some (mkDbHandle (found_or_missing None)
                        (inr (ListObject
                                ((fun n => PInt (Z.of_nat n)) <$> seq 0 12))))))
            ∅))
      "collections"
    = Some (PList reported) /\
    length reported = 10%nat /\ dropped <> [] /\
    (fun n => PInt (Z.of_nat n)) <$> seq 0 12 = reported ++ dropped.
Proof.
  split.
  - apply (proj1 (test_database_collections_prefix None
                    [PStr "users"; PStr "badges"; PStr "events"] ∅)).
    simpl. lia.
  - apply (proj2 (test_database_collections_prefix None
                    ((fun n => PInt (Z.of_nat n)) <$> seq 0 12) ∅)).
    simpl. lia.
Defined.

(** ** The service as a whole *)

(** X12. Among the requests to the data endpoints (every request but
    [GET /test]), the only ones that fail are a summary request for an
    unknown user (404) and an award whose body does not validate (422);
    every other one is answered with 200. *)
Theorem route_status `{Pydantic} (w : World) (req : Request) (g : Globals) :
  req <> GET_test ->
  (http_status (route w req g).1 = 200 \/
   http_status (route w req g).1 = 404 \/
   http_status (route w req g).1 = 422) /\
  (http_status (route w req g).1 = 404 <->
   exists user_id, req = GET_user user_id /\ g_user_details g !! user_id = None) /\
  (http_status (route w req g).1 = 422 <->
   exists body, req = POST_award body /\ validate_DemoAction body = None).
Proof.
  intros Hreq.
  destruct req as [| | | | |user_id|body|]; [..|done];
    unfold route, mbind, handler_bind;
    try (cbn; split; [by left|];
         split; (split; [done|by intros (? & [=] & _)])).
  - unfold get_user_summary, mbind, handler_bind, global, mret, handler_ret,
      raise.
    destruct (g_user_details g !! user_id) as [summary|] eqn:Hs; cbn.
    + split; [by left|]. split; (split; [done|]).
      * intros (? & [= <-] & Hnone). congruence.
      * by intros (? & [=] & _).
    + split; [right; by left|]. split; split; try done.
      * intros _. by exists user_id.
      * by intros (? & [=] & _).
  - unfold post_award.
    destruct (validate_DemoAction body) as [a|] eqn:Hv; cbn.
    + split; [by left|]. split; (split; [done|]).
      * by intros (? & [=] & _).
      * intros (? & [= <-] & Hnone). congruence.
    + split; [right; by right|]. split; split; try done.
      * by intros (? & [=] & _).
      * intros _. by exists body.
Qed.

(** X12 at a summary request for the unknown user "u_999". *)
Lemma route_status_witness :
  http_status
    (@route strict (mkWorld (Imported None) ∅) (GET_user "u_999") startup).1
  = 404.
Proof.
  apply (proj1 (proj2 (@route_status strict (mkWorld (Imported None) ∅)
                         (GET_user "u_999") startup ltac:(discriminate)))).
  exists "u_999". split; reflexivity.
Defined.

(** X13. The service keeps no state between requests: serving a sequence
    of requests hands back the globals unchanged, and each reply is the one
    the request would get on its own, so replies do not depend on what was
    served before and repeating a request repeats its reply. *)
Theorem serve_stateless `{Pydantic} (w : World) (reqs : list Request)
    (g : Globals) :
  serve w reqs g = ((fun req => (route w req g).1) <$> reqs, g) /\
  (forall before after req,
     reqs = before ++ req :: after ->
     (serve w reqs g).1 !! length before = Some (route w req g).1).
Proof.
  assert (Hmap : forall l, serve w l g = ((fun req => (route w req g).1) <$> l, g)).
  { induction l as [|req rest IH]; [done|].
    rewrite serve_cons, IH. done. }
  split; [apply Hmap|].
  intros before after req ->. rewrite Hmap. cbn [fst].
  rewrite list_lookup_fmap, list_lookup_middle; done.
Qed.

(** X13 with a summary request after a rejected award and a failed lookup. *)
Lemma serve_stateless_witness :
  (@serve strict (mkWorld (Imported None) ∅)
     [POST_award PNone; GET_user "u_999"; GET_user "u_002"] startup).1 !! 2%nat
  = Some (@route strict (mkWorld (Imported None) ∅) (GET_user "u_002") startup).1.
Proof.
  apply (proj2 (@serve_stateless strict (mkWorld (Imported None) ∅)
                  [POST_award PNone; GET_user "u_999"; GET_user "u_002"] startup)
           [POST_award PNone; GET_user "u_999"] [] (GET_user "u_002")).
  reflexivity.
Defined.

(** X14. Validation of an award body looks at nothing but the "action" and
    "points" items of a JSON object: adding, changing or removing any other
    key changes neither the verdict nor the model, and a body that is not an
    object (null, a boolean, a number, a string, a list) is rejected. *)
Theorem validate_DemoAction_only_fields `{Pydantic} (d : gmap string pyval)
    (key : string) (v : pyval) (g : Globals) :
  (key <> "action" -> key <> "points" ->
   validate_DemoAction (PDict (<[key := v]> d)) = validate_DemoAction (PDict d) /\
   validate_DemoAction (PDict (delete key d)) = validate_DemoAction (PDict d) /\
   post_award (PDict (<[key := v]> d)) g = post_award (PDict d) g) /\
  (forall body, (forall d', body <> PDict d') ->
     validate_DemoAction body = None /\
     post_award body g = (RequestValidationError, g)).
Proof.
  split.
  - intros Ha Hp.
    assert (Hins : validate_DemoAction (PDict (<[key := v]> d))
                   = validate_DemoAction (PDict d)).
    { unfold validate_DemoAction, required_field, default_field.
      by rewrite !lookup_insert_ne. }
    split; [done|]. split.
    + unfold validate_DemoAction, required_field, default_field.
      by rewrite !lookup_delete_ne.
    + unfold post_award. by rewrite Hins.
  - intros body Hbody.
    assert (Hv : validate_DemoAction body = None).
    { destruct body as [| | | | |d']; try done. by destruct (Hbody d'). }
    split; [done|]. unfold post_award. by rewrite Hv.
Qed.

(** X14 with an extra "note" item, and with the body [null]. *)
Lemma validate_DemoAction_only_fields_witness :
  (@validate_DemoAction strict
     (PDict (<["note" := PStr "hi"]> {["action" := PStr "test"]}))
   = @validate_DemoAction strict (PDict {["action" := PStr "test"]}) /\
   @validate_DemoAction strict
     (PDict (delete "note" {["action" := PStr "test"]}))
   = @validate_DemoAction strict (PDict {["action" := PStr "test"]}) /\
   @post_award strict
     (PDict (<["note" := PStr "hi"]> {["action" := PStr "test"]})) startup
   = @post_award strict (PDict {["action" := PStr "test"]}) startup) /\
  (@validate_DemoAction strict PNone = None /\
   @post_award strict PNone startup = (RequestValidationError, startup)).
Proof.
  split.
  - apply (proj1 (@validate_DemoAction_only_fields strict
                    {["action" := PStr "test"]} "note" (PStr "hi") startup));
      discriminate.
  - apply (proj2 (@validate_DemoAction_only_fields strict
                    ∅ "note" PNone startup) PNone).
    intros d'. discriminate.
Defined.
